(** * Text-to-image graph builder

    A shallow embedding of
    [features/nodes/util/graphBuilders/buildTextToImageGraph.ts] and the
    structural properties of the graphs it assembles.

    Conventions of the embedding:
    - the JavaScript numbers the builder only copies or compares
      ([steps], [width], [height], [iterations], [seed]) are integers in [Z];
      [cfgScale], which may be fractional and is only copied, is a rational;
    - [graph.nodes], a JavaScript object used as a dictionary from node id to
      node, is a [gmap string Invocation];
    - [graph.edges], an array only ever extended with [push], is a list that
      grows at its end;
    - an object literal that leaves an optional field out ([seed] of a noise
      node, [start] of a range-of-size node) has [None] in that field;
    - the mutable [graph] object is threaded explicitly through the
      assignments, in the order of the source;
    - the body of the builder is written once over its mutations of [graph],
      so that the same text gives the graph it returns and the list of the
      assignments and pushes it performs. *)

From stdpp Require Import gmap strings list fin_maps.
From Stdlib Require Import ZArith QArith Lia.

Local Open Scope string_scope.
Local Open Scope Z_scope.

(** ** Node identifiers (the constants at the top of the source file) *)

Definition POSITIVE_CONDITIONING : string := "positive_conditioning".
Definition NEGATIVE_CONDITIONING : string := "negative_conditioning".
Definition TEXT_TO_LATENTS : string := "text_to_latents".
Definition LATENTS_TO_IMAGE : string := "latents_to_image".
Definition NOISE : string := "noise".
Definition RANDOM_INT : string := "rand_int".
Definition RANGE_OF_SIZE : string := "range_of_size".
Definition ITERATE : string := "iterate".

(** ** Data model *)

(** The [generation] slice of the application state, with the fields the
    builder destructures. *)
Record GenerationState := mkGenerationState {
  positivePrompt : string;
  negativePrompt : string;
  model : string;
  cfgScale : Q;
  scheduler : string;
  steps : Z;
  width : Z;
  height : Z;
  iterations : Z;
  seed : Z;
  shouldRandomizeSeed : bool
}.

(** [RootState] is declared in [app/store/store]; the builder reads its
    [generation] slice and hands the whole state to the ControlNet step.
    The remaining slices are kept abstract. *)
Record RootState (Slices : Type) := mkRootState {
  generation : GenerationState;
  slices : Slices
}.
Arguments mkRootState {Slices} _ _.
Arguments generation {Slices} _.
Arguments slices {Slices} _.

(** The invocation objects the builder constructs.  The [type] tag of each
    object literal is fixed by its TypeScript type, so it is the constructor
    of [Invocation]; see [invocation_type]. *)
Record CompelInvocation := mkCompel {
  compel_id : string;
  compel_prompt : string;
  compel_model : string
}.

Record TextToLatentsInvocation := mkTextToLatents {
  t2l_id : string;
  t2l_cfg_scale : Q;
  t2l_model : string;
  t2l_scheduler : string;
  t2l_steps : Z
}.

Record LatentsToImageInvocation := mkLatentsToImage {
  l2i_id : string;
  l2i_model : string
}.

Record NoiseInvocation := mkNoise {
  noise_id : string;
  noise_seed : option Z;
  noise_width : Z;
  noise_height : Z
}.

Record RandomIntInvocation := mkRandomInt {
  rand_int_id : string
}.

Record RangeOfSizeInvocation := mkRangeOfSize {
  range_id : string;
  range_start : option Z;
  range_size : Z
}.

Record IterateInvocation := mkIterate {
  iterate_id : string
}.

Inductive Invocation :=
| Compel (n : CompelInvocation)
| TextToLatents (n : TextToLatentsInvocation)
| LatentsToImage (n : LatentsToImageInvocation)
| Noise (n : NoiseInvocation)
| RandomInt (n : RandomIntInvocation)
| RangeOfSize (n : RangeOfSizeInvocation)
| Iterate (n : IterateInvocation).

(** The [id] field of a node. *)
Definition invocation_id (n : Invocation) : string :=
  match n with
  | Compel c => compel_id c
  | TextToLatents t => t2l_id t
  | LatentsToImage l => l2i_id l
  | Noise x => noise_id x
  | RandomInt r => rand_int_id r
  | RangeOfSize r => range_id r
  | Iterate i => iterate_id i
  end.

(** The [type] field of a node, as written in the object literals. *)
Definition invocation_type (n : Invocation) : string :=
  match n with
  | Compel _ => "compel"
  | TextToLatents _ => "t2l"
  | LatentsToImage _ => "l2i"
  | Noise _ => "noise"
  | RandomInt _ => "rand_int"
  | RangeOfSize _ => "range_of_size"
  | Iterate _ => "iterate"
  end.

Record EdgeConnection := mkConnection {
  node_id : string;
  field : string
}.

Record Edge := mkEdge {
  source : EdgeConnection;
  destination : EdgeConnection
}.

Record NonNullableGraph := mkGraph {
  nodes : gmap string Invocation;
  edges : list Edge
}.

(** ** The two mutations the builder performs *)

(** [graph.nodes[k] = n] *)
Definition set_node (k : string) (n : Invocation) (graph : NonNullableGraph)
  : NonNullableGraph :=
  {| nodes := <[k := n]> (nodes graph); edges := edges graph |}.

(** [graph.edges.push(e)] *)
Definition push_edge (e : Edge) (graph : NonNullableGraph) : NonNullableGraph :=
  {| nodes := nodes graph; edges := edges graph ++ [e] |}.

(** ** The builder *)

(** The type of [addControlNetToLinearGraph(graph, baseNodeId, state)], which
    lives in another file: it receives the graph, mutates it in place, and
    the builder returns that same object. *)
Definition GraphExtender (Slices : Type) : Type :=
  NonNullableGraph -> string -> RootState Slices -> NonNullableGraph.

(** Everything [buildTextToImageGraph] does before it calls
    [addControlNetToLinearGraph], written once over the three things it does
    to [graph]: create it empty ([empty]), assign a node under a key
    ([assign], for [graph.nodes[k] = n]) and push an edge ([push], for
    [graph.edges.push(e)]).  Read on [NonNullableGraph] with [set_node] and
    [push_edge] it is the builder, [buildBaseGraph]; read on [AssemblyTrace]
    it lists the assignments and pushes the builder performs, [buildTrace]. *)
Section Assembly.

Context {G : Type}.
Context (empty : G).
Context (assign : string -> Invocation -> G -> G).
Context (push : Edge -> G -> G).

(** The statements of the source, lines 28 to 311, in their order. *)
Definition assembleBaseGraph (g : GenerationState) : G :=
  let positivePrompt := positivePrompt g in
  let negativePrompt := negativePrompt g in
  let model := model g in
  let cfg_scale := cfgScale g in
  let scheduler := scheduler g in
  let steps := steps g in
  let width := width g in
  let height := height g in
  let iterations := iterations g in
  let seed := seed g in
  let shouldRandomizeSeed := shouldRandomizeSeed g in

  let graph := empty in

  (* Create the conditioning, t2l and l2i nodes *)
  let positiveConditioningNode :=
    {| compel_id := POSITIVE_CONDITIONING;
       compel_prompt := positivePrompt;
       compel_model := model |} in
  let negativeConditioningNode :=
    {| compel_id := NEGATIVE_CONDITIONING;
       compel_prompt := negativePrompt;
       compel_model := model |} in
  let textToLatentsNode :=
    {| t2l_id := TEXT_TO_LATENTS;
       t2l_cfg_scale := cfg_scale;
       t2l_model := model;
       t2l_scheduler := scheduler;
       t2l_steps := steps |} in
  let latentsToImageNode :=
    {| l2i_id := LATENTS_TO_IMAGE; l2i_model := model |} in

  (* Add to the graph *)
  let graph := assign POSITIVE_CONDITIONING (Compel positiveConditioningNode) graph in
  let graph := assign NEGATIVE_CONDITIONING (Compel negativeConditioningNode) graph in
  let graph := assign TEXT_TO_LATENTS (TextToLatents textToLatentsNode) graph in
  let graph := assign LATENTS_TO_IMAGE (LatentsToImage latentsToImageNode) graph in

  (* Connect them *)
  let graph := push
    {| source := {| node_id := POSITIVE_CONDITIONING; field := "conditioning" |};
       destination := {| node_id := TEXT_TO_LATENTS; field := "positive_conditioning" |} |}
    graph in
  let graph := push
    {| source := {| node_id := NEGATIVE_CONDITIONING; field := "conditioning" |};
       destination := {| node_id := TEXT_TO_LATENTS; field := "negative_conditioning" |} |}
    graph in
  let graph := push
    {| source := {| node_id := TEXT_TO_LATENTS; field := "latents" |};
       destination := {| node_id := LATENTS_TO_IMAGE; field := "latents" |} |}
    graph in

  (* Single iteration, explicit seed *)
  let graph :=
    if negb shouldRandomizeSeed && (iterations =? 1) then
      let noiseNode :=
        {| noise_id := NOISE; noise_seed := Some seed;
           noise_width := width; noise_height := height |} in
      let graph := assign NOISE (Noise noiseNode) graph in
      push
        {| source := {| node_id := NOISE; field := "noise" |};
           destination := {| node_id := TEXT_TO_LATENTS; field := "noise" |} |}
        graph
    else graph in

  (* Single iteration, random seed *)
  let graph :=
    if shouldRandomizeSeed && (iterations =? 1) then
      let randomIntNode := {| rand_int_id := RANDOM_INT |} in
      let noiseNode :=
        {| noise_id := NOISE; noise_seed := None;
           noise_width := width; noise_height := height |} in
      let graph := assign RANDOM_INT (RandomInt randomIntNode) graph in
      let graph := assign NOISE (Noise noiseNode) graph in
      let graph := push
        {| source := {| node_id := RANDOM_INT; field := "a" |};
           destination := {| node_id := NOISE; field := "seed" |} |}
        graph in
      push
        {| source := {| node_id := NOISE; field := "noise" |};
           destination := {| node_id := TEXT_TO_LATENTS; field := "noise" |} |}
        graph
    else graph in

  (* Multiple iterations, explicit seed *)
  let graph :=
    if negb shouldRandomizeSeed && (1 <? iterations) then
      let rangeOfSizeNode :=
        {| range_id := RANGE_OF_SIZE; range_start := Some seed;
           range_size := iterations |} in
      let iterateNode := {| iterate_id := ITERATE |} in
      let noiseNode :=
        {| noise_id := NOISE; noise_seed := None;
           noise_width := width; noise_height := height |} in
      let graph := assign RANGE_OF_SIZE (RangeOfSize rangeOfSizeNode) graph in
      let graph := assign ITERATE (Iterate iterateNode) graph in
      let graph := assign NOISE (Noise noiseNode) graph in
      let graph := push
        {| source := {| node_id := RANGE_OF_SIZE; field := "collection" |};
           destination := {| node_id := ITERATE; field := "collection" |} |}
        graph in
      let graph := push
        {| source := {| node_id := ITERATE; field := "item" |};
           destination := {| node_id := NOISE; field := "seed" |} |}
        graph in
      push
        {| source := {| node_id := NOISE; field := "noise" |};
           destination := {| node_id := TEXT_TO_LATENTS; field := "noise" |} |}
        graph
    else graph in

  (* Multiple iterations, random seed *)
  let graph :=
    if shouldRandomizeSeed && (1 <? iterations) then
      let randomIntNode := {| rand_int_id := RANDOM_INT |} in
      let rangeOfSizeNode :=
        {| range_id := RANGE_OF_SIZE; range_start := None;
           range_size := iterations |} in
      let iterateNode := {| iterate_id := ITERATE |} in
      let noiseNode :=
        {| noise_id := NOISE; noise_seed := None;
           noise_width := width; noise_height := height |} in
      let graph := assign RANDOM_INT (RandomInt randomIntNode) graph in
      let graph := assign RANGE_OF_SIZE (RangeOfSize rangeOfSizeNode) graph in
      let graph := assign ITERATE (Iterate iterateNode) graph in
      let graph := assign NOISE (Noise noiseNode) graph in
      let graph := push
        {| source := {| node_id := RANDOM_INT; field := "a" |};
           destination := {| node_id := RANGE_OF_SIZE; field := "start" |} |}
        graph in
      let graph := push
        {| source := {| node_id := RANGE_OF_SIZE; field := "collection" |};
           destination := {| node_id := ITERATE; field := "collection" |} |}
        graph in
      let graph := push
        {| source := {| node_id := ITERATE; field := "item" |};
           destination := {| node_id := NOISE; field := "seed" |} |}
        graph in
      push
        {| source := {| node_id := NOISE; field := "noise" |};
           destination := {| node_id := TEXT_TO_LATENTS; field := "noise" |} |}
        graph
    else graph in

  graph.

End Assembly.

(** The builder on the graph object: [graph] starts as
    [{ nodes: {}, edges: [] }]. *)
Definition buildBaseGraph (g : GenerationState) : NonNullableGraph :=
  assembleBaseGraph {| nodes := ∅; edges := [] |} set_node push_edge g.

(** The statements the builder runs, in order: each [graph.nodes[k] = n] as
    the pair of its key and the node constructed for it, each
    [graph.edges.push(e)] as its edge. *)
Record AssemblyTrace := mkTrace {
  assigned : list (string * Invocation);
  pushed : list Edge
}.

Definition trace_assign (k : string) (n : Invocation) (t : AssemblyTrace)
  : AssemblyTrace :=
  {| assigned := assigned t ++ [(k, n)]; pushed := pushed t |}.

Definition trace_push (e : Edge) (t : AssemblyTrace) : AssemblyTrace :=
  {| assigned := assigned t; pushed := pushed t ++ [e] |}.

Definition buildTrace (g : GenerationState) : AssemblyTrace :=
  assembleBaseGraph {| assigned := []; pushed := [] |} trace_assign trace_push g.

(** The graph object after the statements of a trace have run on an empty
    graph. *)
Definition replay (t : AssemblyTrace) : NonNullableGraph :=
  {| nodes := foldl (λ m kn, <[kn.1 := kn.2]> m) ∅ (assigned t);
     edges := pushed t |}.

(** [buildTextToImageGraph], with the ControlNet step as an argument. *)
Definition buildTextToImageGraph {Slices : Type}
    (addControlNetToLinearGraph : GraphExtender Slices)
    (state : RootState Slices) : NonNullableGraph :=
  let graph := buildBaseGraph (generation state) in
  addControlNetToLinearGraph graph TEXT_TO_LATENTS state.

(** Modelled from the spec: [addControlNetToLinearGraph], defined in
    [../addControlNetToLinearGraph], is not part of the file embedded here.
    This is the collaborator "when it is a no-op", which "leaves the graph
    exactly as produced by the base assembler". *)
Definition noControlNet {Slices : Type} : GraphExtender Slices :=
  fun graph _ _ => graph.

(** ** Named parts of the assembled graphs *)

Definition connect (src_node src_field dst_node dst_field : string) : Edge :=
  {| source := {| node_id := src_node; field := src_field |};
     destination := {| node_id := dst_node; field := dst_field |} |}.

(** The three edges of the fixed conditioning / denoise / decode pipeline. *)
Definition positive_conditioning_edge : Edge :=
  connect POSITIVE_CONDITIONING "conditioning" TEXT_TO_LATENTS "positive_conditioning".
Definition negative_conditioning_edge : Edge :=
  connect NEGATIVE_CONDITIONING "conditioning" TEXT_TO_LATENTS "negative_conditioning".
Definition latents_edge : Edge :=
  connect TEXT_TO_LATENTS "latents" LATENTS_TO_IMAGE "latents".

Definition fixed_edges : list Edge :=
  [positive_conditioning_edge; negative_conditioning_edge; latents_edge].

(** The edges of the seed topologies. *)
Definition noise_edge : Edge := connect NOISE "noise" TEXT_TO_LATENTS "noise".
Definition random_seed_edge : Edge := connect RANDOM_INT "a" NOISE "seed".
Definition range_iterate_edge : Edge :=
  connect RANGE_OF_SIZE "collection" ITERATE "collection".
Definition iterate_seed_edge : Edge := connect ITERATE "item" NOISE "seed".
Definition random_start_edge : Edge := connect RANDOM_INT "a" RANGE_OF_SIZE "start".

(** The four nodes of the fixed pipeline, as the builder fills them in. *)
Definition positive_node (g : GenerationState) : Invocation :=
  Compel (mkCompel POSITIVE_CONDITIONING (positivePrompt g) (model g)).
Definition negative_node (g : GenerationState) : Invocation :=
  Compel (mkCompel NEGATIVE_CONDITIONING (negativePrompt g) (model g)).
Definition denoise_node (g : GenerationState) : Invocation :=
  TextToLatents
    (mkTextToLatents TEXT_TO_LATENTS (cfgScale g) (model g) (scheduler g) (steps g)).
Definition decode_node (g : GenerationState) : Invocation :=
  LatentsToImage (mkLatentsToImage LATENTS_TO_IMAGE (model g)).

Definition fixed_nodes (g : GenerationState) : gmap string Invocation :=
  <[LATENTS_TO_IMAGE := decode_node g]>
    (<[TEXT_TO_LATENTS := denoise_node g]>
      (<[NEGATIVE_CONDITIONING := negative_node g]>
        (<[POSITIVE_CONDITIONING := positive_node g]> ∅))).

(** The seed-topology nodes. *)
Definition noise_node (literal_seed : option Z) (g : GenerationState) : Invocation :=
  Noise (mkNoise NOISE literal_seed (width g) (height g)).
Definition random_int_node : Invocation := RandomInt (mkRandomInt RANDOM_INT).
Definition range_node (literal_start : option Z) (g : GenerationState) : Invocation :=
  RangeOfSize (mkRangeOfSize RANGE_OF_SIZE literal_start (iterations g)).
Definition iterate_node : Invocation := Iterate (mkIterate ITERATE).

(** ** The branch table of the specification *)

(** The four scenarios listed in the comment above the [if] blocks. *)
Inductive SeedBranch :=
| SingleExplicit   (* single iteration, explicit seed *)
| SingleRandom     (* single iteration, random seed *)
| MultiExplicit    (* multiple iterations, explicit seed *)
| MultiRandom.     (* multiple iterations, random seed *)

(** Row selection by the pair (randomize, iterations > 1). *)
Definition table_row (randomize many : bool) : SeedBranch :=
  match randomize, many with
  | false, false => SingleExplicit
  | true, false => SingleRandom
  | false, true => MultiExplicit
  | true, true => MultiRandom
  end.

(** The node ids each row puts upstream of the denoise node. *)
Definition row_ids (b : SeedBranch) : list string :=
  match b with
  | SingleExplicit => [NOISE]
  | SingleRandom => [RANDOM_INT; NOISE]
  | MultiExplicit => [RANGE_OF_SIZE; ITERATE; NOISE]
  | MultiRandom => [RANDOM_INT; RANGE_OF_SIZE; ITERATE; NOISE]
  end.

Definition fixed_ids : list string :=
  [POSITIVE_CONDITIONING; NEGATIVE_CONDITIONING; TEXT_TO_LATENTS; LATENTS_TO_IMAGE].

(** A row has fired in a graph when the graph's nodes are the fixed pipeline
    together with exactly that row's node set. *)
Definition branch_fired (b : SeedBranch) (graph : NonNullableGraph) : Prop :=
  dom (nodes graph) = list_to_set (fixed_ids ++ row_ids b).

(** The keys assigned by the [graph.nodes[...] = ...] statements that run on
    a configuration, in the order they run. *)
Definition assigned_ids (g : GenerationState) : list string :=
  [POSITIVE_CONDITIONING; NEGATIVE_CONDITIONING; TEXT_TO_LATENTS; LATENTS_TO_IMAGE]
  ++ (if negb (shouldRandomizeSeed g) && (iterations g =? 1)
      then [NOISE] else [])
  ++ (if shouldRandomizeSeed g && (iterations g =? 1)
      then [RANDOM_INT; NOISE] else [])
  ++ (if negb (shouldRandomizeSeed g) && (1 <? iterations g)
      then [RANGE_OF_SIZE; ITERATE; NOISE] else [])
  ++ (if shouldRandomizeSeed g && (1 <? iterations g)
      then [RANDOM_INT; RANGE_OF_SIZE; ITERATE; NOISE] else []).

(** ** Structural predicates *)

(** Both ends of an edge are keys of the node map. *)
Definition edge_attached (graph : NonNullableGraph) (e : Edge) : Prop :=
  is_Some (nodes graph !! node_id (source e)) ∧
  is_Some (nodes graph !! node_id (destination e)).

Definition no_dangling_edges (graph : NonNullableGraph) : Prop :=
  ∀ e, e ∈ edges graph → edge_attached graph e.

(** The graph holds a node whose [type] is [ty], under whatever key. *)
Definition has_node_of_type (ty : string) (graph : NonNullableGraph) : Prop :=
  ∃ k n, nodes graph !! k = Some n ∧ invocation_type n = ty.

(** Exactly one row of the table has fired. *)
Definition exactly_one_branch_fired (graph : NonNullableGraph) : Prop :=
  ∃ b, branch_fired b graph ∧ ∀ b', branch_fired b' graph → b' = b.

(** The outcomes of the four tests, as a case distinction. *)
Inductive BranchCase (g : GenerationState) : Prop :=
| case_single_explicit : shouldRandomizeSeed g = false → iterations g = 1 → BranchCase g
| case_single_random : shouldRandomizeSeed g = true → iterations g = 1 → BranchCase g
| case_multi_explicit : shouldRandomizeSeed g = false → 1 < iterations g → BranchCase g
| case_multi_random : shouldRandomizeSeed g = true → 1 < iterations g → BranchCase g
| case_no_branch : iterations g < 1 → BranchCase g.

(** A configuration with its explicit seed replaced. *)
Definition with_seed (seed0 : Z) (g : GenerationState) : GenerationState :=
  {| positivePrompt := positivePrompt g;
     negativePrompt := negativePrompt g;
     model := model g;
     cfgScale := cfgScale g;
     scheduler := scheduler g;
     steps := steps g;
     width := width g;
     height := height g;
     iterations := iterations g;
     seed := seed0;
     shouldRandomizeSeed := shouldRandomizeSeed g |}.

(** ** The graph as a directed graph *)

#[global] Instance EdgeConnection_eq_dec : EqDecision EdgeConnection.
Proof. solve_decision. Defined.

#[global] Instance Edge_eq_dec : EqDecision Edge.
Proof. solve_decision. Defined.

(** Some edge leads from node [a] to node [b]. *)
Definition edge_step (graph : NonNullableGraph) (a b : string) : Prop :=
  ∃ e, e ∈ edges graph ∧ node_id (source e) = a ∧ node_id (destination e) = b.

(** No node is reached from itself along one or more edges. *)
Definition acyclic (graph : NonNullableGraph) : Prop :=
  ∀ k, ¬ tc (edge_step graph) k k.

(** Every node of the graph leads, along zero or more edges, to [target]. *)
Definition all_nodes_feed (target : string) (graph : NonNullableGraph) : Prop :=
  ∀ k, is_Some (nodes graph !! k) → rtc (edge_step graph) k target.

(** The number of edges leaving node [k]. *)
Definition out_degree (graph : NonNullableGraph) (k : string) : nat :=
  length (filter (λ e, node_id (source e) = k) (edges graph)).

(** [target] has no outgoing edge and every other node has exactly one. *)
Definition single_sink (target : string) (graph : NonNullableGraph) : Prop :=
  ∀ k, is_Some (nodes graph !! k) →
       out_degree graph k = if decide (k = target) then 0%nat else 1%nat.

(** No input field (a node id together with a field name) is the destination
    of two edges. *)
Definition inputs_singly_connected (graph : NonNullableGraph) : Prop :=
  NoDup (destination <$> edges graph).

(** The edges that end in the given input field. *)
Definition edges_into (input : EdgeConnection) (graph : NonNullableGraph) : list Edge :=
  filter (λ e, destination e = input) (edges graph).

(** A position for each node id in an order that every edge of every
    assembled graph follows. *)
Definition node_rank (k : string) : nat :=
  if decide (k = RANDOM_INT) then 0
  else if decide (k = RANGE_OF_SIZE) then 1
  else if decide (k = ITERATE) then 2
  else if decide (k = NOISE) then 3
  else if decide (k = POSITIVE_CONDITIONING) then 3
  else if decide (k = NEGATIVE_CONDITIONING) then 3
  else if decide (k = TEXT_TO_LATENTS) then 4
  else 5.

(** ** Example configurations *)

Definition example_generation (randomize : bool) (count seed0 : Z) : GenerationState :=
  {| positivePrompt := "a lighthouse at dusk";
     negativePrompt := "blurry";
     model := "stable-diffusion-1.5";
     cfgScale := (15 # 2)%Q;
     scheduler := "euler";
     steps := 30;
     width := 512;
     height := 512;
     iterations := count;
     seed := seed0;
     shouldRandomizeSeed := randomize |}.

Definition example_state (randomize : bool) (count seed0 : Z) : RootState unit :=
  mkRootState (example_generation randomize count seed0) tt.

(** The same configuration inside a state whose other slices differ. *)
Definition example_state_other_slices (randomize : bool) (count seed0 : Z)
  : RootState (list string) :=
  mkRootState (example_generation randomize count seed0) ["controlNet"; "gallery"].

(** ** Normal forms of the base graph, one per outcome of the four tests *)

(** Settles [iterations g =? 1] and [1 <? iterations g] from what is known
    about [iterations g]. *)
Ltac settle_tests g :=
  try match goal with H : iterations g = 1 |- _ => rewrite !H end;
  try replace (iterations g =? 1) with false by (symmetry; apply Z.eqb_neq; lia);
  try replace (1 <? iterations g) with true by (symmetry; apply Z.ltb_lt; lia);
  try replace (1 <? iterations g) with false by (symmetry; apply Z.ltb_ge; lia);
  try match goal with H : shouldRandomizeSeed g = _ |- _ => rewrite !H end;
  rewrite ?andb_false_r.

Lemma base_single_explicit g :
  shouldRandomizeSeed g = false → iterations g = 1 →
  buildBaseGraph g =
    {| nodes := <[NOISE := noise_node (Some (seed g)) g]> (fixed_nodes g);
       edges := fixed_edges ++ [noise_edge] |}.
Proof.
  intros Hr Hi. unfold buildBaseGraph, assembleBaseGraph. cbv zeta. settle_tests g. reflexivity.
Qed.

Lemma base_single_random g :
  shouldRandomizeSeed g = true → iterations g = 1 →
  buildBaseGraph g =
    {| nodes := <[NOISE := noise_node None g]>
                  (<[RANDOM_INT := random_int_node]> (fixed_nodes g));
       edges := fixed_edges ++ [random_seed_edge; noise_edge] |}.
Proof.
  intros Hr Hi. unfold buildBaseGraph, assembleBaseGraph. cbv zeta. settle_tests g. reflexivity.
Qed.

Lemma base_multi_explicit g :
  shouldRandomizeSeed g = false → 1 < iterations g →
  buildBaseGraph g =
    {| nodes := <[NOISE := noise_node None g]>
                  (<[ITERATE := iterate_node]>
                    (<[RANGE_OF_SIZE := range_node (Some (seed g)) g]> (fixed_nodes g)));
       edges := fixed_edges ++ [range_iterate_edge; iterate_seed_edge; noise_edge] |}.
Proof.
  intros Hr Hi. unfold buildBaseGraph, assembleBaseGraph. cbv zeta. settle_tests g. reflexivity.
Qed.

Lemma base_multi_random g :
  shouldRandomizeSeed g = true → 1 < iterations g →
  buildBaseGraph g =
    {| nodes := <[NOISE := noise_node None g]>
                  (<[ITERATE := iterate_node]>
                    (<[RANGE_OF_SIZE := range_node None g]>
                      (<[RANDOM_INT := random_int_node]> (fixed_nodes g))));
       edges := fixed_edges ++
                [random_start_edge; range_iterate_edge; iterate_seed_edge; noise_edge] |}.
Proof.
  intros Hr Hi. unfold buildBaseGraph, assembleBaseGraph. cbv zeta. settle_tests g. reflexivity.
Qed.

Lemma base_no_branch g :
  iterations g < 1 →
  buildBaseGraph g = {| nodes := fixed_nodes g; edges := fixed_edges |}.
Proof.
  intros Hi. unfold buildBaseGraph, assembleBaseGraph. cbv zeta. settle_tests g. reflexivity.
Qed.

Lemma branch_case g : BranchCase g.
Proof.
  destruct (Z.lt_trichotomy (iterations g) 1) as [Hlt | [Heq | Hgt]].
  - by apply case_no_branch.
  - destruct (shouldRandomizeSeed g) eqn:Hr;
      [by apply case_single_random | by apply case_single_explicit].
  - destruct (shouldRandomizeSeed g) eqn:Hr;
      [by apply case_multi_random | by apply case_multi_explicit].
Qed.

(** Case analysis on a configuration, rewriting the base graph to the normal
    form of the case at hand. *)
Ltac base_cases g :=
  let Hr := fresh "Hr" in
  let Hi := fresh "Hi" in
  destruct (branch_case g) as [Hr Hi | Hr Hi | Hr Hi | Hr Hi | Hi];
  [ rewrite (base_single_explicit g Hr Hi)
  | rewrite (base_single_random g Hr Hi)
  | rewrite (base_multi_explicit g Hr Hi)
  | rewrite (base_multi_random g Hr Hi)
  | rewrite (base_no_branch g Hi) ].

(** With a ControlNet step that adds nothing, the builder returns the base
    graph. *)
Lemma build_noControlNet {Slices} (state : RootState Slices) :
  buildTextToImageGraph noControlNet state = buildBaseGraph (generation state).
Proof. reflexivity. Qed.

(** ** Reasoning about the node map and the edge list *)

Lemma no_node_of_type ty graph :
  map_Forall (λ _ n, invocation_type n ≠ ty) (nodes graph) →
  ¬ has_node_of_type ty graph.
Proof. intros Hall (k & n & Hk & Hty). exact (Hall k n Hk Hty). Qed.

(** A property of every node, checked insertion by insertion. *)
Ltac each_node :=
  cbn [nodes]; unfold fixed_nodes;
  repeat match goal with
         | |- map_Forall _ (<[_ := _]> _) => apply map_Forall_insert_2
         | |- map_Forall _ ∅ => apply map_Forall_empty
         end.

Ltac absent_type := apply no_node_of_type; each_node; cbn; discriminate.

(** Lookup of a concrete id in a map built by insertions. *)
Ltac node_lookup := cbn [nodes]; unfold fixed_nodes; by simplify_map_eq.

(** Membership of a concrete edge in a concrete edge list. *)
Ltac edge_member := cbn [edges app fixed_edges]; set_solver.

(** Split a membership hypothesis over a concrete edge list into its cases. *)
Ltac each_edge He :=
  cbn [edges app fixed_edges] in He;
  repeat (apply elem_of_cons in He as [-> | He]);
  try (by apply elem_of_nil in He).

(** ** The assembled graph is well formed *)

(** C1. For every configuration, each edge of the graph returned by
    [buildTextToImageGraph] (ControlNet step adding nothing) has its source
    node id and its destination node id among the keys of the graph's node
    map: there is no dangling edge. *)
Theorem buildTextToImageGraph_no_dangling_edges {Slices} (state : RootState Slices) :
  no_dangling_edges (buildTextToImageGraph noControlNet state).
Proof.
  rewrite build_noControlNet. base_cases (generation state).
  all: intros e He; each_edge He.
  all: split; cbn [source destination node_id connect
                   positive_conditioning_edge negative_conditioning_edge
                   latents_edge noise_edge random_seed_edge range_iterate_edge
                   iterate_seed_edge random_start_edge].
  all: eexists; node_lookup.
Qed.

(** Replaying a trace follows the two mutations of the graph object. *)
Lemma replay_assign (k : string) (n : Invocation) (t : AssemblyTrace) :
  replay (trace_assign k n t) = set_node k n (replay t).
Proof. unfold replay, trace_assign, set_node. cbn. by rewrite foldl_app. Qed.

Lemma replay_push (e : Edge) (t : AssemblyTrace) :
  replay (trace_push e t) = push_edge e (replay t).
Proof. reflexivity. Qed.

(** The graph the builder returns is the replay of the statements it runs. *)
Lemma buildBaseGraph_replay (g : GenerationState) :
  buildBaseGraph g = replay (buildTrace g).
Proof.
  unfold buildBaseGraph, buildTrace, assembleBaseGraph. cbv zeta.
  destruct (shouldRandomizeSeed g), (iterations g =? 1), (1 <? iterations g);
    reflexivity.
Qed.

(** The keys of the assignments the builder runs. *)
Lemma buildTrace_keys (g : GenerationState) :
  (assigned (buildTrace g)).*1 = assigned_ids g.
Proof.
  unfold buildTrace, assembleBaseGraph, assigned_ids. cbv zeta.
  destruct (shouldRandomizeSeed g), (iterations g =? 1), (1 <? iterations g);
    reflexivity.
Qed.

(** C9. For every configuration, the assignments [graph.nodes[k] = n] that
    the builder runs use pairwise different keys, so no two constructed nodes
    share an id and no assignment overwrites another; every constructed node
    carries as its [id] the key it is assigned under; the returned graph is
    what these statements leave behind, and the size of its node map is the
    number of assignments, that is, of ids used by the branch that ran.  The
    keys of the returned node map are these ids, without duplicate, and every
    node stored under a key carries that key as its [id]. *)
Theorem buildTextToImageGraph_unique_node_ids {Slices} (state : RootState Slices) :
  buildTextToImageGraph noControlNet state
    = replay (buildTrace (generation state)) ∧
  NoDup (assigned (buildTrace (generation state))).*1 ∧
  Forall (λ kn, invocation_id kn.2 = kn.1)
    (assigned (buildTrace (generation state))) ∧
  size (nodes (buildTextToImageGraph noControlNet state))
    = length (assigned (buildTrace (generation state))) ∧
  (assigned (buildTrace (generation state))).*1
    = assigned_ids (generation state) ∧
  NoDup (assigned_ids (generation state)) ∧
  dom (nodes (buildTextToImageGraph noControlNet state))
    = list_to_set (assigned_ids (generation state)) ∧
  size (nodes (buildTextToImageGraph noControlNet state))
    = length (assigned_ids (generation state)) ∧
  map_Forall (λ k n, invocation_id n = k)
    (nodes (buildTextToImageGraph noControlNet state)) ∧
  NoDup (map_to_list (nodes (buildTextToImageGraph noControlNet state))).*1.
Proof.
  rewrite build_noControlNet. set (g := generation state).
  assert (NoDup (assigned_ids g)) as Hids.
  { destruct (branch_case g) as [Hr Hi | Hr Hi | Hr Hi | Hr Hi | Hi].
    all: unfold assigned_ids; settle_tests g; cbn [negb andb app].
    all: by apply (bool_decide_unpack _). }
  assert (size (nodes (buildBaseGraph g)) = length (assigned_ids g)) as Hsize.
  { base_cases g; unfold assigned_ids; settle_tests g; reflexivity. }
  split_and!.
  - apply buildBaseGraph_replay.
  - by rewrite buildTrace_keys.
  - destruct (branch_case g) as [Hr Hi | Hr Hi | Hr Hi | Hr Hi | Hi].
    all: unfold buildTrace, assembleBaseGraph; cbv zeta; settle_tests g.
    all: cbn; repeat constructor.
  - by rewrite Hsize, <- buildTrace_keys, length_fmap.
  - apply buildTrace_keys.
  - exact Hids.
  - base_cases g; unfold assigned_ids; settle_tests g; cbn [negb andb app].
    all: cbn [nodes]; unfold fixed_nodes; rewrite !dom_insert_L, dom_empty_L;
         cbn [list_to_set]; set_solver.
  - exact Hsize.
  - base_cases g; each_node; reflexivity.
  - apply NoDup_fst_map_to_list.
Qed.

(** ** The fixed pipeline *)

(** C7. For every configuration, the returned graph holds the four fixed
    nodes (positive conditioning, negative conditioning, denoise, decode)
    filled from the configuration's prompts, model, guidance scale, scheduler
    and step count, and the three fixed edges, which are the first three
    edges of every graph, in the same order. *)
Theorem buildTextToImageGraph_fixed_pipeline {Slices} (state : RootState Slices) :
  nodes (buildTextToImageGraph noControlNet state) !! POSITIVE_CONDITIONING
    = Some (Compel {| compel_id := POSITIVE_CONDITIONING;
                      compel_prompt := positivePrompt (generation state);
                      compel_model := model (generation state) |}) ∧
  nodes (buildTextToImageGraph noControlNet state) !! NEGATIVE_CONDITIONING
    = Some (Compel {| compel_id := NEGATIVE_CONDITIONING;
                      compel_prompt := negativePrompt (generation state);
                      compel_model := model (generation state) |}) ∧
  nodes (buildTextToImageGraph noControlNet state) !! TEXT_TO_LATENTS
    = Some (TextToLatents {| t2l_id := TEXT_TO_LATENTS;
                             t2l_cfg_scale := cfgScale (generation state);
                             t2l_model := model (generation state);
                             t2l_scheduler := scheduler (generation state);
                             t2l_steps := steps (generation state) |}) ∧
  nodes (buildTextToImageGraph noControlNet state) !! LATENTS_TO_IMAGE
    = Some (LatentsToImage {| l2i_id := LATENTS_TO_IMAGE;
                              l2i_model := model (generation state) |}) ∧
  connect POSITIVE_CONDITIONING "conditioning" TEXT_TO_LATENTS "positive_conditioning"
    ∈ edges (buildTextToImageGraph noControlNet state) ∧
  connect NEGATIVE_CONDITIONING "conditioning" TEXT_TO_LATENTS "negative_conditioning"
    ∈ edges (buildTextToImageGraph noControlNet state) ∧
  connect TEXT_TO_LATENTS "latents" LATENTS_TO_IMAGE "latents"
    ∈ edges (buildTextToImageGraph noControlNet state) ∧
  [ connect POSITIVE_CONDITIONING "conditioning" TEXT_TO_LATENTS "positive_conditioning";
    connect NEGATIVE_CONDITIONING "conditioning" TEXT_TO_LATENTS "negative_conditioning";
    connect TEXT_TO_LATENTS "latents" LATENTS_TO_IMAGE "latents" ]
    `prefix_of` edges (buildTextToImageGraph noControlNet state).
Proof.
  rewrite build_noControlNet. set (g := generation state).
  base_cases g; split_and!.
  all: try node_lookup.
  all: try edge_member.
  all: cbn [edges]; apply prefix_app_r; reflexivity || by eexists [].
Qed.

(** ** The four seed topologies *)

(** C3. With an explicit seed and a single iteration, the graph holds a noise
    node carrying the configuration's seed, width and height, holds no
    random-int, range-of-size or iterate node (by type or by id), and holds
    the edge from the noise node's [noise] field to the denoise node's
    [noise] field. *)
Theorem single_iteration_explicit_seed {Slices} (state : RootState Slices)
    (Hrandomize : shouldRandomizeSeed (generation state) = false)
    (Hiterations : iterations (generation state) = 1) :
  nodes (buildTextToImageGraph noControlNet state) !! NOISE
    = Some (Noise {| noise_id := NOISE;
                     noise_seed := Some (seed (generation state));
                     noise_width := width (generation state);
                     noise_height := height (generation state) |}) ∧
  ¬ has_node_of_type "rand_int" (buildTextToImageGraph noControlNet state) ∧
  ¬ has_node_of_type "range_of_size" (buildTextToImageGraph noControlNet state) ∧
  ¬ has_node_of_type "iterate" (buildTextToImageGraph noControlNet state) ∧
  nodes (buildTextToImageGraph noControlNet state) !! RANDOM_INT = None ∧
  nodes (buildTextToImageGraph noControlNet state) !! RANGE_OF_SIZE = None ∧
  nodes (buildTextToImageGraph noControlNet state) !! ITERATE = None ∧
  connect NOISE "noise" TEXT_TO_LATENTS "noise"
    ∈ edges (buildTextToImageGraph noControlNet state).
Proof.
  rewrite build_noControlNet, (base_single_explicit _ Hrandomize Hiterations).
  split_and!; try absent_type; try node_lookup; edge_member.
Qed.

Lemma single_iteration_explicit_seed_witness :
  nodes (buildTextToImageGraph noControlNet (example_state false 1 42)) !! NOISE
    = Some (Noise {| noise_id := "noise"; noise_seed := Some 42;
                     noise_width := 512; noise_height := 512 |}) ∧
  ¬ has_node_of_type "rand_int"
      (buildTextToImageGraph noControlNet (example_state false 1 42)) ∧
  ¬ has_node_of_type "range_of_size"
      (buildTextToImageGraph noControlNet (example_state false 1 42)) ∧
  ¬ has_node_of_type "iterate"
      (buildTextToImageGraph noControlNet (example_state false 1 42)) ∧
  nodes (buildTextToImageGraph noControlNet (example_state false 1 42)) !! RANDOM_INT = None ∧
  nodes (buildTextToImageGraph noControlNet (example_state false 1 42)) !! RANGE_OF_SIZE = None ∧
  nodes (buildTextToImageGraph noControlNet (example_state false 1 42)) !! ITERATE = None ∧
  connect "noise" "noise" "text_to_latents" "noise"
    ∈ edges (buildTextToImageGraph noControlNet (example_state false 1 42)).
Proof.
  apply (single_iteration_explicit_seed (example_state false 1 42)); reflexivity.
Defined.


(** C4. With a random seed and a single iteration, the graph holds a random-int
    node and a noise node without a literal seed, the edge from the random-int
    node's field [a] to the noise node's field [seed], and no range-of-size or
    iterate node (by type or by id). *)
Theorem single_iteration_random_seed {Slices} (state : RootState Slices)
    (Hrandomize : shouldRandomizeSeed (generation state) = true)
    (Hiterations : iterations (generation state) = 1) :
  nodes (buildTextToImageGraph noControlNet state) !! RANDOM_INT
    = Some (RandomInt {| rand_int_id := RANDOM_INT |}) ∧
  nodes (buildTextToImageGraph noControlNet state) !! NOISE
    = Some (Noise {| noise_id := NOISE;
                     noise_seed := None;
                     noise_width := width (generation state);
                     noise_height := height (generation state) |}) ∧
  connect RANDOM_INT "a" NOISE "seed"
    ∈ edges (buildTextToImageGraph noControlNet state) ∧
  ¬ has_node_of_type "range_of_size" (buildTextToImageGraph noControlNet state) ∧
  ¬ has_node_of_type "iterate" (buildTextToImageGraph noControlNet state) ∧
  nodes (buildTextToImageGraph noControlNet state) !! RANGE_OF_SIZE = None ∧
  nodes (buildTextToImageGraph noControlNet state) !! ITERATE = None.
Proof.
  rewrite build_noControlNet, (base_single_random _ Hrandomize Hiterations).
  split_and!; try absent_type; try node_lookup; edge_member.
Qed.

Lemma single_iteration_random_seed_witness :
  nodes (buildTextToImageGraph noControlNet (example_state true 1 42)) !! RANDOM_INT
    = Some (RandomInt {| rand_int_id := "rand_int" |}) ∧
  nodes (buildTextToImageGraph noControlNet (example_state true 1 42)) !! NOISE
    = Some (Noise {| noise_id := "noise"; noise_seed := None;
                     noise_width := 512; noise_height := 512 |}) ∧
  connect "rand_int" "a" "noise" "seed"
    ∈ edges (buildTextToImageGraph noControlNet (example_state true 1 42)) ∧
  ¬ has_node_of_type "range_of_size"
      (buildTextToImageGraph noControlNet (example_state true 1 42)) ∧
  ¬ has_node_of_type "iterate"
      (buildTextToImageGraph noControlNet (example_state true 1 42)) ∧
  nodes (buildTextToImageGraph noControlNet (example_state true 1 42)) !! RANGE_OF_SIZE = None ∧
  nodes (buildTextToImageGraph noControlNet (example_state true 1 42)) !! ITERATE = None.
Proof.
  apply (single_iteration_random_seed (example_state true 1 42)); reflexivity.
Defined.


(** C5. With an explicit seed and more than one iteration, the graph holds a
    range-of-size node whose [start] is the configuration's seed and whose
    [size] is the iteration count, an iterate node, a noise node without a
    literal seed, and the edges range-of-size.collection -> iterate.collection
    and iterate.item -> noise.seed. *)
Theorem multiple_iterations_explicit_seed {Slices} (state : RootState Slices)
    (Hrandomize : shouldRandomizeSeed (generation state) = false)
    (Hiterations : 1 < iterations (generation state)) :
  nodes (buildTextToImageGraph noControlNet state) !! RANGE_OF_SIZE
    = Some (RangeOfSize {| range_id := RANGE_OF_SIZE;
                           range_start := Some (seed (generation state));
                           range_size := iterations (generation state) |}) ∧
  nodes (buildTextToImageGraph noControlNet state) !! ITERATE
    = Some (Iterate {| iterate_id := ITERATE |}) ∧
  nodes (buildTextToImageGraph noControlNet state) !! NOISE
    = Some (Noise {| noise_id := NOISE;
                     noise_seed := None;
                     noise_width := width (generation state);
                     noise_height := height (generation state) |}) ∧
  connect RANGE_OF_SIZE "collection" ITERATE "collection"
    ∈ edges (buildTextToImageGraph noControlNet state) ∧
  connect ITERATE "item" NOISE "seed"
    ∈ edges (buildTextToImageGraph noControlNet state).
Proof.
  rewrite build_noControlNet, (base_multi_explicit _ Hrandomize Hiterations).
  split_and!; try node_lookup; edge_member.
Qed.

Lemma multiple_iterations_explicit_seed_witness :
  nodes (buildTextToImageGraph noControlNet (example_state false 5 7)) !! RANGE_OF_SIZE
    = Some (RangeOfSize {| range_id := "range_of_size"; range_start := Some 7;
                           range_size := 5 |}) ∧
  nodes (buildTextToImageGraph noControlNet (example_state false 5 7)) !! ITERATE
    = Some (Iterate {| iterate_id := "iterate" |}) ∧
  nodes (buildTextToImageGraph noControlNet (example_state false 5 7)) !! NOISE
    = Some (Noise {| noise_id := "noise"; noise_seed := None;
                     noise_width := 512; noise_height := 512 |}) ∧
  connect "range_of_size" "collection" "iterate" "collection"
    ∈ edges (buildTextToImageGraph noControlNet (example_state false 5 7)) ∧
  connect "iterate" "item" "noise" "seed"
    ∈ edges (buildTextToImageGraph noControlNet (example_state false 5 7)).
Proof.
  apply (multiple_iterations_explicit_seed (example_state false 5 7));
    [reflexivity | cbn; lia].
Defined.


(** C6. With a random seed and more than one iteration, the graph holds a
    random-int node, a range-of-size node whose [size] is the iteration count
    and which has no literal [start], an iterate node, a noise node without a
    literal seed, the edge random-int.a -> range-of-size.start, and the
    range-of-size -> iterate -> noise.seed wiring. *)
Theorem multiple_iterations_random_seed {Slices} (state : RootState Slices)
    (Hrandomize : shouldRandomizeSeed (generation state) = true)
    (Hiterations : 1 < iterations (generation state)) :
  nodes (buildTextToImageGraph noControlNet state) !! RANDOM_INT
    = Some (RandomInt {| rand_int_id := RANDOM_INT |}) ∧
  nodes (buildTextToImageGraph noControlNet state) !! RANGE_OF_SIZE
    = Some (RangeOfSize {| range_id := RANGE_OF_SIZE;
                           range_start := None;
                           range_size := iterations (generation state) |}) ∧
  nodes (buildTextToImageGraph noControlNet state) !! ITERATE
    = Some (Iterate {| iterate_id := ITERATE |}) ∧
  nodes (buildTextToImageGraph noControlNet state) !! NOISE
    = Some (Noise {| noise_id := NOISE;
                     noise_seed := None;
                     noise_width := width (generation state);
                     noise_height := height (generation state) |}) ∧
  connect RANDOM_INT "a" RANGE_OF_SIZE "start"
    ∈ edges (buildTextToImageGraph noControlNet state) ∧
  connect RANGE_OF_SIZE "collection" ITERATE "collection"
    ∈ edges (buildTextToImageGraph noControlNet state) ∧
  connect ITERATE "item" NOISE "seed"
    ∈ edges (buildTextToImageGraph noControlNet state).
Proof.
  rewrite build_noControlNet, (base_multi_random _ Hrandomize Hiterations).
  split_and!; try node_lookup; edge_member.
Qed.

Lemma multiple_iterations_random_seed_witness :
  nodes (buildTextToImageGraph noControlNet (example_state true 5 7)) !! RANDOM_INT
    = Some (RandomInt {| rand_int_id := "rand_int" |}) ∧
  nodes (buildTextToImageGraph noControlNet (example_state true 5 7)) !! RANGE_OF_SIZE
    = Some (RangeOfSize {| range_id := "range_of_size"; range_start := None;
                           range_size := 5 |}) ∧
  nodes (buildTextToImageGraph noControlNet (example_state true 5 7)) !! ITERATE
    = Some (Iterate {| iterate_id := "iterate" |}) ∧
  nodes (buildTextToImageGraph noControlNet (example_state true 5 7)) !! NOISE
    = Some (Noise {| noise_id := "noise"; noise_seed := None;
                     noise_width := 512; noise_height := 512 |}) ∧
  connect "rand_int" "a" "range_of_size" "start"
    ∈ edges (buildTextToImageGraph noControlNet (example_state true 5 7)) ∧
  connect "range_of_size" "collection" "iterate" "collection"
    ∈ edges (buildTextToImageGraph noControlNet (example_state true 5 7)) ∧
  connect "iterate" "item" "noise" "seed"
    ∈ edges (buildTextToImageGraph noControlNet (example_state true 5 7)).
Proof.
  apply (multiple_iterations_random_seed (example_state true 5 7));
    [reflexivity | cbn; lia].
Defined.


(** ** Branch selection *)

(** Each row's node set, read back from the normal forms. *)
Lemma dom_fixed_nodes g : dom (fixed_nodes g) = list_to_set fixed_ids.
Proof.
  unfold fixed_nodes. rewrite !dom_insert_L, dom_empty_L.
  cbn [list_to_set fixed_ids]. set_solver.
Qed.

(** Sets of ids given by equal lists have the same members, decidably. *)
Lemma list_to_set_eq_member (l l' : list string) (x : string) :
  list_to_set l =@{gset string} list_to_set l' →
  bool_decide (x ∈ l) = bool_decide (x ∈ l').
Proof.
  intros Heq. apply bool_decide_ext.
  rewrite <- !(elem_of_list_to_set (C := gset string)). by rewrite Heq.
Qed.

(** Two rows with the same node set are the same row: the rows differ in
    whether they hold the random-int id and the range-of-size id. *)
Lemma row_ids_inj (b b' : SeedBranch) :
  list_to_set (fixed_ids ++ row_ids b) =@{gset string}
    list_to_set (fixed_ids ++ row_ids b') →
  b' = b.
Proof.
  intros Heq.
  pose proof (list_to_set_eq_member _ _ RANDOM_INT Heq) as Hrandom.
  pose proof (list_to_set_eq_member _ _ RANGE_OF_SIZE Heq) as Hrange.
  destruct b, b'; try reflexivity;
    vm_compute in Hrandom, Hrange; discriminate.
Qed.

(** The fixed pipeline alone is no row's node set: every row holds the noise
    id. *)
Lemma fixed_ids_no_row (b : SeedBranch) :
  list_to_set fixed_ids ≠@{gset string} list_to_set (fixed_ids ++ row_ids b).
Proof.
  intros Heq.
  pose proof (list_to_set_eq_member _ _ NOISE Heq) as Hnoise.
  destruct b; vm_compute in Hnoise; discriminate.
Qed.

(** C2, at a configuration with no iteration: no row of the branch table has
    fired, so it is not the case that exactly one has. *)
Lemma zero_iterations_no_branch_fired :
  ¬ exactly_one_branch_fired
      (buildTextToImageGraph noControlNet (example_state false 0 42)).
Proof.
  intros (b & Hfired & _). unfold branch_fired in Hfired.
  rewrite build_noControlNet, base_no_branch in Hfired by (cbn; lia).
  cbn [nodes] in Hfired. rewrite dom_fixed_nodes in Hfired.
  exact (fixed_ids_no_row b Hfired).
Qed.

(** C2, amended. For every configuration with at least one iteration, the
    row of the branch table selected by (shouldRandomizeSeed, iterations > 1)
    has fired in the returned graph, and it is the only row that has. *)
Theorem exactly_one_seed_branch {Slices} (state : RootState Slices)
    (Hiterations : 1 ≤ iterations (generation state)) :
  branch_fired
    (table_row (shouldRandomizeSeed (generation state))
               (1 <? iterations (generation state)))
    (buildTextToImageGraph noControlNet state) ∧
  exactly_one_branch_fired (buildTextToImageGraph noControlNet state).
Proof.
  set (g := generation state) in *.
  assert (branch_fired (table_row (shouldRandomizeSeed g) (1 <? iterations g))
            (buildTextToImageGraph noControlNet state)) as Hfired.
  { rewrite build_noControlNet. fold g. unfold branch_fired.
    base_cases g; [| | | | lia].
    all: settle_tests g; cbn [nodes table_row Z.ltb Z.compare Pos.compare Pos.compare_cont].
    all: rewrite !dom_insert_L, dom_fixed_nodes.
    all: cbn [row_ids fixed_ids app list_to_set]; set_solver. }
  split; [exact Hfired |].
  eexists. split; [exact Hfired |].
  intros b' Hb'. unfold branch_fired in *. rewrite Hfired in Hb'.
  by apply row_ids_inj.
Qed.

Lemma exactly_one_seed_branch_witness :
  1 ≤ iterations (generation (example_state true 5 7)) ∧
  branch_fired MultiRandom
    (buildTextToImageGraph noControlNet (example_state true 5 7)) ∧
  exactly_one_branch_fired
    (buildTextToImageGraph noControlNet (example_state true 5 7)).
Proof.
  split; [cbn; lia |].
  apply (exactly_one_seed_branch (example_state true 5 7)). cbn; lia.
Defined.

(** C10. With fewer than one iteration, whatever the seed policy, none of the
    four [if] blocks runs: the base graph is exactly the four fixed nodes and
    the three fixed edges; it has no noise node, no edge into the denoise
    node's [noise] field, and no row of the branch table has fired. *)
Theorem no_seed_branch_below_one_iteration {Slices} (state : RootState Slices)
    (Hiterations : iterations (generation state) < 1) :
  nodes (buildTextToImageGraph noControlNet state) = fixed_nodes (generation state) ∧
  edges (buildTextToImageGraph noControlNet state) = fixed_edges ∧
  size (nodes (buildTextToImageGraph noControlNet state)) = 4%nat ∧
  dom (nodes (buildTextToImageGraph noControlNet state)) = list_to_set fixed_ids ∧
  nodes (buildTextToImageGraph noControlNet state) !! NOISE = None ∧
  ¬ has_node_of_type "noise" (buildTextToImageGraph noControlNet state) ∧
  (∀ e, e ∈ edges (buildTextToImageGraph noControlNet state) →
        destination e ≠ {| node_id := TEXT_TO_LATENTS; field := "noise" |}) ∧
  (∀ b, ¬ branch_fired b (buildTextToImageGraph noControlNet state)).
Proof.
  rewrite build_noControlNet, (base_no_branch _ Hiterations).
  split_and!.
  - reflexivity.
  - reflexivity.
  - reflexivity.
  - apply dom_fixed_nodes.
  - node_lookup.
  - absent_type.
  - intros e He. each_edge He; discriminate.
  - intros b Hb. unfold branch_fired in Hb. cbn [nodes] in Hb.
    rewrite dom_fixed_nodes in Hb. exact (fixed_ids_no_row b Hb).
Qed.

Lemma no_seed_branch_below_one_iteration_witness :
  iterations (generation (example_state true 0 42)) < 1 ∧
  edges (buildTextToImageGraph noControlNet (example_state true 0 42))
    = [ connect POSITIVE_CONDITIONING "conditioning" TEXT_TO_LATENTS "positive_conditioning";
        connect NEGATIVE_CONDITIONING "conditioning" TEXT_TO_LATENTS "negative_conditioning";
        connect TEXT_TO_LATENTS "latents" LATENTS_TO_IMAGE "latents" ] ∧
  size (nodes (buildTextToImageGraph noControlNet (example_state true 0 42))) = 4%nat ∧
  nodes (buildTextToImageGraph noControlNet (example_state true 0 42)) !! NOISE = None.
Proof.
  assert (iterations (generation (example_state true 0 42)) < 1) as Hlt by (cbn; lia).
  destruct (no_seed_branch_below_one_iteration (example_state true 0 42) Hlt)
    as (_ & Hedges & Hsize & _ & Hnoise & _).
  split_and!; [exact Hlt | exact Hedges | exact Hsize | exact Hnoise].
Defined.

(** ** The explicit seed under randomization *)

(** When the seed is randomized the explicit seed is not read: no seed value
    is fixed while the graph is assembled, the random-int node stands for it. *)
Lemma randomized_graph_ignores_seed (g : GenerationState) (seed0 : Z) :
  shouldRandomizeSeed g = true →
  buildBaseGraph (with_seed seed0 g) = buildBaseGraph g.
Proof.
  intros Hr. unfold buildBaseGraph, assembleBaseGraph, with_seed. cbn. rewrite Hr. reflexivity.
Qed.

(** ** The shape of the assembled graph *)

(** Membership of a concrete edge in a concrete edge list, by computation. *)
Ltac edge_listed := by (apply (bool_decide_unpack _); vm_compute).

(** The cases of a key of the node map of a normal form. *)
Ltac each_key Hk :=
  apply elem_of_dom in Hk; cbn [nodes] in Hk;
  rewrite ?dom_insert_L, dom_fixed_nodes in Hk;
  cbn [list_to_set fixed_ids] in Hk;
  rewrite ?elem_of_union, ?elem_of_singleton in Hk;
  destruct_or!; try (by apply elem_of_empty in Hk); subst.

Lemma tc_increases {A} (R : relation A) (f : A → nat) :
  (∀ a b, R a b → (f a < f b)%nat) →
  ∀ a b, tc R a b → (f a < f b)%nat.
Proof.
  intros Hstep a b Hab.
  induction Hab as [a b Hab | a b c Hab _ IH].
  - by apply Hstep.
  - specialize (Hstep _ _ Hab). lia.
Qed.

Lemma edge_step_rank {Slices} (state : RootState Slices) (a b : string) :
  edge_step (buildTextToImageGraph noControlNet state) a b →
  (node_rank a < node_rank b)%nat.
Proof.
  rewrite build_noControlNet. intros (e & He & <- & <-). revert He.
  base_cases (generation state); intros He; each_edge He; vm_compute; lia.
Qed.

(** X1. For every configuration the returned graph has no cycle: no node is
    reached from itself along one or more edges. *)
Theorem buildTextToImageGraph_acyclic {Slices} (state : RootState Slices) :
  acyclic (buildTextToImageGraph noControlNet state).
Proof.
  intros k Hloop.
  apply (tc_increases _ node_rank (edge_step_rank state)) in Hloop. lia.
Qed.

(** X2. For every configuration no input field receives two edges: the
    destinations of the edges are pairwise different. *)
Theorem buildTextToImageGraph_inputs_singly_connected {Slices}
    (state : RootState Slices) :
  inputs_singly_connected (buildTextToImageGraph noControlNet state).
Proof.
  rewrite build_noControlNet. unfold inputs_singly_connected.
  base_cases (generation state); by apply (bool_decide_unpack _).
Qed.

(** X3. For every configuration the graph has one node more than it has
    edges, and between four and eight nodes. *)
Theorem buildTextToImageGraph_node_and_edge_count {Slices}
    (state : RootState Slices) :
  size (nodes (buildTextToImageGraph noControlNet state))
    = S (length (edges (buildTextToImageGraph noControlNet state))) ∧
  (4 ≤ size (nodes (buildTextToImageGraph noControlNet state)) ≤ 8)%nat.
Proof.
  rewrite build_noControlNet.
  base_cases (generation state); (split; [reflexivity | vm_compute; lia]).
Qed.

(** X4. For every configuration the decode node is the only sink: it has no
    outgoing edge, and every other node of the graph has exactly one. *)
Theorem buildTextToImageGraph_single_sink {Slices} (state : RootState Slices) :
  single_sink LATENTS_TO_IMAGE (buildTextToImageGraph noControlNet state).
Proof.
  rewrite build_noControlNet.
  base_cases (generation state); intros k Hk; each_key Hk; reflexivity.
Qed.

(** One step along a listed edge towards the target. *)
Ltac hop e :=
  eapply (rtc_l _ _ (node_id (destination e)));
  [ exists e; split; [edge_listed | split; reflexivity] | ].

Ltac walk :=
  first [ apply rtc_refl
        | hop latents_edge; walk
        | hop positive_conditioning_edge; walk
        | hop negative_conditioning_edge; walk
        | hop noise_edge; walk
        | hop random_seed_edge; walk
        | hop iterate_seed_edge; walk
        | hop range_iterate_edge; walk
        | hop random_start_edge; walk ].

(** X5. For every configuration every node of the graph leads to the decode
    node along the edges: no node is left out of the pipeline. *)
Theorem buildTextToImageGraph_all_nodes_feed_decode {Slices}
    (state : RootState Slices) :
  all_nodes_feed LATENTS_TO_IMAGE (buildTextToImageGraph noControlNet state).
Proof.
  rewrite build_noControlNet.
  base_cases (generation state); intros k Hk; each_key Hk; cbn [edges]; walk.
Qed.

(** ** What the graph carries from the configuration *)

(** X6. With at least one iteration the graph has exactly one noise node: it
    is stored under the noise id, has the configuration's width and height,
    and carries the explicit seed only for a single iteration without
    randomization.  The edge from its [noise] field to the denoise node's
    [noise] field is the last edge and the only edge into that field. *)
Theorem noise_node_and_wiring {Slices} (state : RootState Slices)
    (k : string) (x : NoiseInvocation)
    (Hiterations : 1 ≤ iterations (generation state)) :
  nodes (buildTextToImageGraph noControlNet state) !! NOISE
    = Some (Noise {| noise_id := NOISE;
                     noise_seed :=
                       if shouldRandomizeSeed (generation state)
                          || (1 <? iterations (generation state))
                       then None else Some (seed (generation state));
                     noise_width := width (generation state);
                     noise_height := height (generation state) |}) ∧
  (nodes (buildTextToImageGraph noControlNet state) !! k = Some (Noise x) →
   k = NOISE) ∧
  last (edges (buildTextToImageGraph noControlNet state))
    = Some (connect NOISE "noise" TEXT_TO_LATENTS "noise") ∧
  edges_into {| node_id := TEXT_TO_LATENTS; field := "noise" |}
             (buildTextToImageGraph noControlNet state)
    = [connect NOISE "noise" TEXT_TO_LATENTS "noise"].
Proof.
  rewrite build_noControlNet. set (g := generation state) in *.
  assert (map_Forall (λ k n, match n with Noise _ => k = NOISE | _ => True end)
            (nodes (buildBaseGraph g))) as Hnoise.
  { base_cases g; each_node; exact I || reflexivity. }
  split_and!; [| intros Hk; exact (Hnoise k _ Hk) | |].
  all: base_cases g; [| | | | lia]; settle_tests g; try reflexivity; node_lookup.
Qed.

Lemma noise_node_and_wiring_witness :
  nodes (buildTextToImageGraph noControlNet (example_state false 5 7)) !! NOISE
    = Some (Noise {| noise_id := "noise"; noise_seed := None;
                     noise_width := 512; noise_height := 512 |}) ∧
  (nodes (buildTextToImageGraph noControlNet (example_state false 5 7)) !! "noise"
     = Some (Noise {| noise_id := "noise"; noise_seed := None;
                      noise_width := 512; noise_height := 512 |}) →
   "noise" = NOISE) ∧
  last (edges (buildTextToImageGraph noControlNet (example_state false 5 7)))
    = Some (connect "noise" "noise" "text_to_latents" "noise") ∧
  edges_into {| node_id := "text_to_latents"; field := "noise" |}
             (buildTextToImageGraph noControlNet (example_state false 5 7))
    = [connect "noise" "noise" "text_to_latents" "noise"].
Proof.
  apply (noise_node_and_wiring (example_state false 5 7) "noise"
           {| noise_id := "noise"; noise_seed := None;
              noise_width := 512; noise_height := 512 |}).
  cbn; lia.
Defined.

(** X7. A range-of-size node is in the graph only when there is more than one
    iteration: it is stored under the range-of-size id, its [size] is the
    iteration count (so at least two), and its [start] is the explicit seed
    exactly when the seed is not randomized. *)
Theorem range_node_invariant {Slices} (state : RootState Slices)
    (k : string) (r : RangeOfSizeInvocation)
    (Hnode : nodes (buildTextToImageGraph noControlNet state) !! k
               = Some (RangeOfSize r)) :
  k = RANGE_OF_SIZE ∧
  range_id r = RANGE_OF_SIZE ∧
  range_size r = iterations (generation state) ∧
  1 < range_size r ∧
  range_start r = (if shouldRandomizeSeed (generation state)
                   then None else Some (seed (generation state))).
Proof.
  rewrite build_noControlNet in Hnode. set (g := generation state) in *.
  assert (map_Forall
            (λ k n, match n with
                    | RangeOfSize r =>
                        k = RANGE_OF_SIZE ∧ range_id r = RANGE_OF_SIZE ∧
                        range_size r = iterations g ∧ 1 < range_size r ∧
                        range_start r =
                          (if shouldRandomizeSeed g then None else Some (seed g))
                    | _ => True
                    end)
            (nodes (buildBaseGraph g))) as Hrange.
  { base_cases g; each_node; try exact I.
    all: cbn [range_node range_id range_size range_start]; rewrite Hr; by split_and!. }
  exact (Hrange k _ Hnode).
Qed.

Lemma range_node_invariant_witness :
  "range_of_size" = RANGE_OF_SIZE ∧
  range_id {| range_id := "range_of_size"; range_start := Some 7; range_size := 5 |}
    = RANGE_OF_SIZE ∧
  5 = iterations (generation (example_state false 5 7)) ∧
  1 < 5 ∧
  Some 7 = Some (seed (generation (example_state false 5 7))).
Proof.
  apply (range_node_invariant (example_state false 5 7) "range_of_size"
           {| range_id := "range_of_size"; range_start := Some 7; range_size := 5 |}).
  reflexivity.
Defined.

(** X8. The explicit seed is read exactly when it is needed: replacing the
    seed of a configuration by another value leaves the graph unchanged if
    and only if the value is the same, or the seed is randomized, or there is
    less than one iteration. *)
Theorem seed_matters_iff {Slices} (state : RootState Slices) (seed0 : Z) :
  buildTextToImageGraph noControlNet
      (mkRootState (with_seed seed0 (generation state)) (slices state))
    = buildTextToImageGraph noControlNet state
  ↔ seed0 = seed (generation state) ∨
    shouldRandomizeSeed (generation state) = true ∨
    iterations (generation state) < 1.
Proof.
  rewrite !build_noControlNet. cbn [generation].
  set (g := generation state). split.
  - intros Heq.
    destruct (branch_case g) as [Hr Hi | Hr Hi | Hr Hi | Hr Hi | Hi]; auto.
    + assert (nodes (buildBaseGraph (with_seed seed0 g)) !! NOISE
              = nodes (buildBaseGraph g) !! NOISE) as Hnoise by (by rewrite Heq).
      rewrite (base_single_explicit g Hr Hi) in Hnoise.
      rewrite (base_single_explicit (with_seed seed0 g) Hr Hi) in Hnoise.
      cbn [nodes] in Hnoise. rewrite !lookup_insert_eq in Hnoise.
      left. by injection Hnoise.
    + assert (nodes (buildBaseGraph (with_seed seed0 g)) !! RANGE_OF_SIZE
              = nodes (buildBaseGraph g) !! RANGE_OF_SIZE) as Hrange by (by rewrite Heq).
      rewrite (base_multi_explicit g Hr Hi) in Hrange.
      rewrite (base_multi_explicit (with_seed seed0 g) Hr Hi) in Hrange.
      cbn [nodes] in Hrange.
      rewrite !(lookup_insert_ne _ NOISE), !(lookup_insert_ne _ ITERATE),
        !lookup_insert_eq in Hrange by done.
      left. by injection Hrange.
  - intros [-> | [Hr | Hi]].
    + by destruct g.
    + by apply randomized_graph_ignores_seed.
    + by rewrite (base_no_branch g Hi), (base_no_branch (with_seed seed0 g) Hi).
Qed.

(** X9. The wiring depends on the configuration only through the seed policy
    and the two tests on the iteration count: configurations that agree on
    these have the same edge sequence and the same node ids. *)
Theorem topology_depends_on_tests_only {Slices1 Slices2}
    (state1 : RootState Slices1) (state2 : RootState Slices2)
    (Hrandomize : shouldRandomizeSeed (generation state1)
                  = shouldRandomizeSeed (generation state2))
    (Hsingle : (iterations (generation state1) =? 1)
               = (iterations (generation state2) =? 1))
    (Hmany : (1 <? iterations (generation state1))
             = (1 <? iterations (generation state2))) :
  edges (buildTextToImageGraph noControlNet state1)
    = edges (buildTextToImageGraph noControlNet state2) ∧
  dom (nodes (buildTextToImageGraph noControlNet state1))
    = dom (nodes (buildTextToImageGraph noControlNet state2)).
Proof.
  rewrite !build_noControlNet. unfold buildBaseGraph, assembleBaseGraph. cbv zeta.
  rewrite Hrandomize, Hsingle, Hmany.
  destruct (shouldRandomizeSeed (generation state2)),
    (iterations (generation state2) =? 1), (1 <? iterations (generation state2)).
  all: cbn [negb andb]; split; [reflexivity |].
  all: cbn [nodes set_node push_edge]; by rewrite !dom_insert_L.
Qed.

Lemma topology_depends_on_tests_only_witness :
  edges (buildTextToImageGraph noControlNet (example_state false 5 7))
    = edges (buildTextToImageGraph noControlNet (example_state_other_slices false 9 123)) ∧
  dom (nodes (buildTextToImageGraph noControlNet (example_state false 5 7)))
    = dom (nodes (buildTextToImageGraph noControlNet
                    (example_state_other_slices false 9 123))).
Proof.
  apply (topology_depends_on_tests_only
           (example_state false 5 7) (example_state_other_slices false 9 123));
    reflexivity.
Defined.
